(** * The example Python function of monk-entities

    A shallow embedding of
    [examples/do-function/example-python-function/main.py] and the
    properties its specification states about it.

    The handler [main] receives the invocation parameters as a Python
    [dict] decoded from JSON, reads four keys with [dict.get], prints two
    log lines and returns one of three literal response dictionaries.

    The data.
    - Values are the values JSON decoding produces: [None], booleans,
      integers, floats, strings, lists and string-keyed dictionaries.
    - A Python string is a sequence of code points, any of them, lone
      surrogates included: a list of numbers.
    - A float is never computed with by the handler, it is only carried
      and printed: it is represented by the text [repr] gives for it.
    - A dictionary keeps insertion order (it shows in [str] and in
      [json.dumps]), so it is an association list; [dict.get] finds the
      first entry with the key.

    The environment.  What a run does beyond its input is read from an
    [env]: the text of the clock, which code points the encoder of
    [stdout] accepts, which code points the interpreter's Unicode table
    calls printable, and whether the interpreter's stack is deep enough
    for [str] and for [json.dumps] to walk a nested value.

    The effects.  Exceptions and the lines written by [print] are
    threaded by the monad [Py]. *)

From Stdlib Require Import ZArith NArith List String Ascii Bool Lia.
From Stdlib Require Import DecimalString.
Import ListNotations.
Open Scope string_scope.
Open Scope list_scope.

Set Warnings "-register-all".

(** ** Text *)

(** A Python [str]: its code points. *)
Definition text : Type := list N.

(** The text of a literal of the source, character by character. *)
Definition u (s : string) : text :=
  map N_of_ascii (list_ascii_of_string s).

Fixpoint text_eqb (a b : text) : bool :=
  match a, b with
  | [], [] => true
  | x :: a', y :: b' => N.eqb x y && text_eqb a' b'
  | _, _ => false
  end.

(** ** Values *)

Inductive value : Type :=
| VNone
| VBool (b : bool)
| VInt (n : Z)
| VFloat (repr : string)
| VStr (s : text)
| VList (items : list value)
| VDict (items : list (text * value)).

Definition dict : Type := list (text * value).

(** The entry of key [k], as [k in d] and [d[k]] see it. *)
Fixpoint lookup (k : text) (d : dict) : option value :=
  match d with
  | [] => None
  | (k', v) :: d' => if text_eqb k k' then Some v else lookup k d'
  end.

(** [d.get(k, default)] on a dictionary. *)
Definition dict_get (d : dict) (k : text) (default : value) : value :=
  match lookup k d with
  | Some v => v
  | None => default
  end.

(** [type(v).__name__] *)
Definition type_name (v : value) : string :=
  match v with
  | VNone => "NoneType"
  | VBool _ => "bool"
  | VInt _ => "int"
  | VFloat _ => "float"
  | VStr _ => "str"
  | VList _ => "list"
  | VDict _ => "dict"
  end.

(** [v == s] for a string literal [s]: only a string with the same
    characters is equal to it. *)
Definition eq_str (v : value) (s : text) : bool :=
  match v with
  | VStr t => text_eqb t s
  | _ => false
  end.

(** A value that is not a container. *)
Definition scalar (v : value) : bool :=
  match v with
  | VList _ | VDict _ => false
  | _ => true
  end.

(** A value with no container inside a container. *)
Definition flat (v : value) : bool :=
  match v with
  | VList items => forallb scalar items
  | VDict items => forallb (fun kv => scalar (snd kv)) items
  | _ => true
  end.

(** How deep the containers of a value nest. *)
Fixpoint depth (v : value) : nat :=
  match v with
  | VList items =>
      S (fold_right (fun x d => Nat.max (depth x) d) O items)
  | VDict items =>
      S (fold_right (fun kv d => match kv with
                                 | (_, x) => Nat.max (depth x) d
                                 end) O items)
  | _ => O
  end.

(** ** The environment of a run *)

Record env : Type := {
  (** the text of [datetime.now().isoformat()] *)
  now : text;
  (** the code points from 128 up that the encoder of [stdout] accepts;
      the ASCII range it always accepts *)
  stdout_encodes : N -> bool;
  (** [str.isprintable] on the code points from 128 up, as the Unicode
      table of the interpreter has it *)
  unicode_printable : N -> bool;
  (** the stack is deep enough for [str] to walk this nested value *)
  str_completes : value -> bool;
  (** the stack is deep enough for [json.dumps] to walk this nested
      value *)
  json_completes : value -> bool
}.

(** [str(v)] does not exhaust the stack: nothing nests in [v], or the
    interpreter has the room. *)
Definition str_ok (e : env) (v : value) : bool :=
  flat v || str_completes e v.

(** [json.dumps(v, indent=2)] does not exhaust the stack. *)
Definition json_ok (e : env) (v : value) : bool :=
  flat v || json_completes e v.

(** [stdout] can encode every character of the line. *)
Definition encodable (e : env) (line : text) : bool :=
  forallb (fun c => (c <? 128)%N || stdout_encodes e c) line.

(** ** Text of values: [str], [repr] and [json.dumps] *)

Definition hex_digit (n : N) : N :=
  nth (N.to_nat n) (u "0123456789abcdef") 102%N.

(** The last [width] hexadecimal digits of [n], lower case. *)
Fixpoint hex (width : nat) (n : N) : text :=
  match width with
  | O => []
  | S w => hex w (n / 16)%N ++ [hex_digit (n mod 16)%N]
  end.

Definition string_of_Z (n : Z) : string :=
  NilZero.string_of_int (Z.to_int n).

Definition dquote : N := 34%N.
Definition squote : N := 39%N.
Definition backslash : N := 92%N.

Definition contains (c : N) (s : text) : bool :=
  existsb (N.eqb c) s.

Fixpoint join (sep : text) (l : list text) : text :=
  match l with
  | [] => []
  | [x] => x
  | x :: l' => x ++ sep ++ join sep l'
  end.

(** One character of [repr] of a string quoted with [quote]. *)
Definition repr_char (e : env) (quote c : N) : text :=
  (if (c =? quote) || (c =? backslash) then [backslash; c]
   else if c =? 9 then u "\t"
   else if c =? 10 then u "\n"
   else if c =? 13 then u "\r"
   else if (c <? 32) || (c =? 127) then u "\x" ++ hex 2 c
   else if c <? 127 then [c]
   else if unicode_printable e c then [c]
   else if c <? 256 then u "\x" ++ hex 2 c
   else if c <? 65536 then u "\u" ++ hex 4 c
   else u "\U" ++ hex 8 c)%N.

(** [repr(s)] of a string: single quotes, unless the string has a single
    quote and no double quote. *)
Definition repr_str (e : env) (s : text) : text :=
  let quote :=
    if contains squote s && negb (contains dquote s)
    then dquote else squote in
  quote :: flat_map (repr_char e quote) s ++ [quote].

(** [repr(v)] *)
Fixpoint py_repr (e : env) (v : value) : text :=
  match v with
  | VNone => u "None"
  | VBool true => u "True"
  | VBool false => u "False"
  | VInt n => u (string_of_Z n)
  | VFloat r => u r
  | VStr s => repr_str e s
  | VList items => u "[" ++ join (u ", ") (map (py_repr e) items) ++ u "]"
  | VDict items =>
      u "{" ++ join (u ", ")
                 (map (fun kv => match kv with
                                 | (k, x) =>
                                     repr_str e k ++ u ": " ++ py_repr e x
                                 end) items) ++ u "}"
  end.

(** [str(v)] *)
Definition py_str (e : env) (v : value) : text :=
  match v with
  | VStr s => s
  | _ => py_repr e v
  end.

(** One character inside a JSON string with [ensure_ascii]. *)
Definition json_char (c : N) : text :=
  (if c =? backslash then u "\\"
   else if c =? dquote then [backslash; dquote]
   else if c =? 8 then u "\b"
   else if c =? 12 then u "\f"
   else if c =? 10 then u "\n"
   else if c =? 13 then u "\r"
   else if c =? 9 then u "\t"
   else if (32 <=? c) && (c <? 127) then [c]
   else if c <? 65536 then u "\u" ++ hex 4 c
   else
     let v := c - 65536 in
     u "\u" ++ hex 4 (N.lor 55296 (N.land (N.shiftr v 10) 1023))
       ++ u "\u" ++ hex 4 (N.lor 56320 (N.land v 1023)))%N.

Definition json_string (s : text) : text :=
  dquote :: flat_map json_char s ++ [dquote].

Definition json_float (r : string) : text :=
  if String.eqb r "nan" then u "NaN"
  else if String.eqb r "inf" then u "Infinity"
  else if String.eqb r "-inf" then u "-Infinity"
  else u r.

(** ["\n" + indent * level] with an indent of two spaces. *)
Definition newline_indent (level : nat) : text :=
  10%N :: repeat 32%N (2 * level).

(** The text [json.dumps(v, indent=2)] builds for a value at nesting
    depth [level]. *)
Fixpoint json_encode (level : nat) (v : value) : text :=
  match v with
  | VNone => u "null"
  | VBool true => u "true"
  | VBool false => u "false"
  | VInt n => u (string_of_Z n)
  | VFloat r => json_float r
  | VStr s => json_string s
  | VList [] => u "[]"
  | VList items =>
      u "[" ++ newline_indent (S level)
          ++ join (u "," ++ newline_indent (S level))
                  (map (json_encode (S level)) items)
          ++ newline_indent level ++ u "]"
  | VDict [] => u "{}"
  | VDict items =>
      u "{" ++ newline_indent (S level)
          ++ join (u "," ++ newline_indent (S level))
                  (map (fun kv => match kv with
                                  | (k, x) =>
                                      json_string k ++ u ": "
                                        ++ json_encode (S level) x
                                  end) items)
          ++ newline_indent level ++ u "}"
  end.

(** ** Exceptions and output *)

Inductive exn : Type :=
| AttributeError (msg : string)
| UnicodeEncodeError
| RecursionError.

Inductive outcome (A : Type) : Type :=
| Returns (a : A)
| Raises (x : exn).

Arguments Returns {A} a.
Arguments Raises {A} x.

(** A computation takes the lines printed so far and gives its outcome
    and the lines printed after it. *)
Definition Py (A : Type) : Type := list text -> outcome A * list text.

Definition ret {A} (a : A) : Py A := fun out => (Returns a, out).

Definition raise {A} (x : exn) : Py A := fun out => (Raises x, out).

Definition bind {A B} (m : Py A) (f : A -> Py B) : Py B :=
  fun out =>
    match m out with
    | (Returns a, out') => f a out'
    | (Raises x, out') => (Raises x, out')
    end.

Definition run {A} (m : Py A) : outcome A * list text := m [].

Notation "x <- m ;; k" := (bind m (fun x => k))
  (at level 61, m at next level, right associativity).
Notation "' pat <- m ;; k" :=
  (bind m (fun x => match x with pat => k end))
  (at level 61, pat pattern, m at next level, right associativity).
Notation "m ;;; k" := (bind m (fun _ => k))
  (at level 61, right associativity).

(** [print(line)]: the line is encoded as a whole before any of it is
    written, so a character that [stdout] cannot encode raises and
    leaves the output as it was. *)
Definition print (e : env) (line : text) : Py unit :=
  fun out =>
    if encodable e line then (Returns tt, out ++ [line])
    else (Raises UnicodeEncodeError, out).

(** A replacement field [{v}] of an f-string: [str(v)], or
    [RecursionError] when [v] nests deeper than the stack allows. *)
Definition format (e : env) (v : value) : Py text :=
  if str_ok e v then ret (py_str e v) else raise RecursionError.

(** [json.dumps(v, indent=2)] *)
Definition json_dumps_indent2 (e : env) (v : value) : Py text :=
  if json_ok e v then ret (json_encode 0 v) else raise RecursionError.

(** [o.get(k, default)] on any value: only a dictionary has the
    attribute [get]. *)
Definition call_get (o : value) (k : text) (default : value) : Py value :=
  match o with
  | VDict d => ret (dict_get d k default)
  | _ =>
      raise (AttributeError
               ("'" ++ type_name o ++ "' object has no attribute 'get'")%string)
  end.

(** ** The handler *)

(** Lines 10-12, [# Get parameters from args].  The arguments of a call
    are evaluated before the call, so the fallback
    [args.get('query', {}).get('name', 'World')] is computed whether or
    not [args] has the key ['name']. *)
Definition get_parameters (args : dict) : Py (value * value * value) :=
  fallback <- call_get (dict_get args (u "query") (VDict [])) (u "name")
                       (VStr (u "World")) ;;
  let name := dict_get args (u "name") fallback in
  let method := dict_get args (u "__ow_method") (VStr (u "GET")) in
  let path := dict_get args (u "__ow_path") (VStr (u "/")) in
  ret (name, method, path).

(** Lines 15-16, [# Log the incoming request]. *)
Definition log_request (e : env) (args : dict) (method path : value)
    : Py unit :=
  m <- format e method ;;
  p <- format e path ;;
  print e (u "Received " ++ m ++ u " request to " ++ p) ;;;
  j <- json_dumps_indent2 e (VDict args) ;;
  print e (u "Args: " ++ j).

(** Lines 19-59, [# Handle different HTTP methods]. *)
Definition handle_method (e : env) (args : dict)
    (name method path : value) : Py value :=
  if eq_str method (u "GET") then
    n <- format e name ;;
    ret (VDict
           [ (u "statusCode", VInt 200);
             (u "headers",
              VDict [ (u "Content-Type", VStr (u "application/json"));
                      (u "Access-Control-Allow-Origin", VStr (u "*")) ]);
             (u "body",
              VDict [ (u "message", VStr (u "Hello, " ++ n ++ u "!"));
                      (u "timestamp", VStr (now e));
                      (u "method", method);
                      (u "path", path);
                      (u "language", VStr (u "Python")) ]) ])
  else if eq_str method (u "POST") then
    let body := dict_get args (u "body") (VDict args) in
    ret (VDict
           [ (u "statusCode", VInt 200);
             (u "headers",
              VDict [ (u "Content-Type", VStr (u "application/json"));
                      (u "Access-Control-Allow-Origin", VStr (u "*")) ]);
             (u "body",
              VDict [ (u "message", VStr (u "Data received successfully"));
                      (u "receivedData", body);
                      (u "timestamp", VStr (now e)) ]) ])
  else
    m <- format e method ;;
    ret (VDict
           [ (u "statusCode", VInt 405);
             (u "headers",
              VDict [ (u "Content-Type", VStr (u "application/json"));
                      (u "Access-Control-Allow-Origin", VStr (u "*")) ]);
             (u "body",
              VDict [ (u "error",
                       VStr (u "Method " ++ m ++ u " not allowed"));
                      (u "allowedMethods",
                       VList [VStr (u "GET"); VStr (u "POST")]) ]) ]).

(** [main(args)] *)
Definition main (e : env) (args : dict) : Py value :=
  '(name, method, path) <- get_parameters args ;;
  log_request e args method path ;;;
  handle_method e args name method path.

(** ** The vocabulary of the specification *)

(** [v[k]] when [v] is a dictionary with the key [k]. *)
Definition field (k : string) (v : value) : option value :=
  match v with
  | VDict d => lookup (u k) d
  | _ => None
  end.

(** [v['body'][k]] *)
Definition body_field (k : string) (v : value) : option value :=
  match field "body" v with
  | Some b => field k b
  | None => None
  end.

(** The result record of the specification's data model: a status code,
    a mapping from strings to strings and a body of any shape. *)
Record InvocationResult : Type := {
  statusCode : Z;
  headers : list (text * text);
  body : value
}.

(** The entries of a dictionary all of whose values are strings. *)
Fixpoint string_entries (d : dict) : option (list (text * text)) :=
  match d with
  | [] => Some []
  | (k, VStr s) :: d' => option_map (cons (k, s)) (string_entries d')
  | _ => None
  end.

(** A returned value read as an [InvocationResult]: a dictionary with
    exactly the three keys, an integer under [statusCode] and a
    string-to-string dictionary under [headers]. *)
Definition as_result (v : value) : option InvocationResult :=
  match v with
  | VDict d =>
      match lookup (u "statusCode") d, lookup (u "headers") d,
            lookup (u "body") d with
      | Some (VInt code), Some (VDict h), Some b =>
          if Nat.eqb (List.length d) 3 then
            option_map (fun hs => {| statusCode := code; headers := hs;
                                     body := b |})
                       (string_entries h)
          else None
      | _, _, _ => None
      end
  | _ => None
  end.

Definition is_dict (v : value) : bool :=
  match v with
  | VDict _ => true
  | _ => false
  end.

(** The key ['query'] is absent or holds a mapping. *)
Definition query_ok (args : dict) : bool :=
  match lookup (u "query") args with
  | None => true
  | Some q => is_dict q
  end.

(** The headers every response literal of the source carries. *)
Definition json_cors_headers : value :=
  VDict [ (u "Content-Type", VStr (u "application/json"));
          (u "Access-Control-Allow-Origin", VStr (u "*")) ].

(** The response of the [else] branch for a method whose text is [m]. *)
Definition response_405 (m : text) : value :=
  VDict [ (u "statusCode", VInt 405);
          (u "headers", json_cors_headers);
          (u "body",
           VDict [ (u "error", VStr (u "Method " ++ m ++ u " not allowed"));
                   (u "allowedMethods",
                    VList [VStr (u "GET"); VStr (u "POST")]) ]) ].

(** The name, method and path that lines 10-12 bind, when they
    complete. *)
Definition resolved (args : dict) : option (value * value * value) :=
  match run (get_parameters args) with
  | (Returns p, _) => Some p
  | (Raises _, _) => None
  end.

(** The text of the first log line. *)
Definition received_line (e : env) (method path : value) : text :=
  u "Received " ++ py_str e method ++ u " request to " ++ py_str e path.

(** The text of the second log line. *)
Definition args_line (args : dict) : text :=
  u "Args: " ++ json_encode 0 (VDict args).

(** The two log lines can be produced and written: [str] of the method
    and of the path and [json.dumps] of the arguments complete, and
    [stdout] can encode both lines. *)
Definition can_log (e : env) (args : dict) (method path : value) : bool :=
  str_ok e method && str_ok e path
  && encodable e (received_line e method path)
  && json_ok e (VDict args)
  && encodable e (args_line args).

(** Nothing stops the run: ['query'] is absent or a mapping, so that the
    parameters resolve; the two log lines can be produced and written;
    and on a GET, [str] of the name completes. *)
Definition can_return (e : env) (args : dict) : bool :=
  match resolved args with
  | Some (name, method, path) =>
      can_log e args method path
      && (negb (eq_str method (u "GET")) || str_ok e name)
  | None => false
  end.

(** ** Sample environments and invocations *)

(** A code point of the surrogate range U+D800-U+DFFF. *)
Definition surrogate (c : N) : bool :=
  ((55296 <=? c) && (c <=? 57343))%N.

(** An interpreter with UTF-8 on [stdout], which encodes every code
    point but the surrogates, the Latin-1 rows of the Unicode table (the
    sample runs hold no printable character above them), and a stack
    that holds fewer than 900 nested containers. *)
Definition sample_env : env :=
  {| now := u "2026-11-04T12:00:00.000000";
     stdout_encodes := fun c => negb (surrogate c);
     unicode_printable :=
       fun c => ((161 <=? c) && (c <? 256) && negb (c =? 173))%N;
     str_completes := fun v => Nat.ltb (depth v) 900;
     json_completes := fun v => Nat.ltb (depth v) 900 |}.

(** The same interpreter at a later time. *)
Definition later_env : env :=
  {| now := u "2027-01-01T00:00:00";
     stdout_encodes := stdout_encodes sample_env;
     unicode_printable := unicode_printable sample_env;
     str_completes := str_completes sample_env;
     json_completes := json_completes sample_env |}.

(** A lone surrogate, as [json.loads] gives it for ["\ud800"]. *)
Definition lone_surrogate : text := [55296%N].

(** [[[...[None]...]]], a thousand lists deep. *)
Definition deep_list : value :=
  Nat.iter 1000 (fun v => VList [v]) VNone.

(** [{"name": "Ada", "__ow_method": "GET"}] *)
Definition args_ada : dict :=
  [ (u "name", VStr (u "Ada")); (u "__ow_method", VStr (u "GET")) ].

(** [{"query": {"name": "Bob"}}] *)
Definition args_query_bob : dict :=
  [ (u "query", VDict [ (u "name", VStr (u "Bob")) ]) ].

(** [{"__ow_method": "POST", "body": {"x": 1}}] *)
Definition args_post : dict :=
  [ (u "__ow_method", VStr (u "POST"));
    (u "body", VDict [ (u "x", VInt 1) ]) ].

(** [{"__ow_method": "DELETE"}] *)
Definition args_delete : dict :=
  [ (u "__ow_method", VStr (u "DELETE")) ].

(** [{"__ow_method": "DELETE", "__ow_path": "/items", "name": "Ada",
      "body": [1]}] *)
Definition args_delete_items : dict :=
  [ (u "__ow_method", VStr (u "DELETE")); (u "__ow_path", VStr (u "/items"));
    (u "name", VStr (u "Ada")); (u "body", VList [ VInt 1 ]) ].

(** [{"__ow_method": "get", "__ow_path": "/lower"}] *)
Definition args_lowercase_get : dict :=
  [ (u "__ow_method", VStr (u "get")); (u "__ow_path", VStr (u "/lower")) ].

(** [{"name": "Ada", "query": "x"}] *)
Definition args_ada_query_text : dict :=
  [ (u "name", VStr (u "Ada")); (u "query", VStr (u "x")) ].

(** [{"query": "x"}] *)
Definition args_query_text : dict :=
  [ (u "query", VStr (u "x")) ].

(** [{"__ow_method": "GET", "query": "x"}] *)
Definition args_get_query_text : dict :=
  [ (u "__ow_method", VStr (u "GET")); (u "query", VStr (u "x")) ].

(** [{"__ow_method": "POST", "query": "x"}] *)
Definition args_post_query_text : dict :=
  [ (u "__ow_method", VStr (u "POST")); (u "query", VStr (u "x")) ].

(** [{"__ow_method": "PUT", "query": "x"}] *)
Definition args_put_query_text : dict :=
  [ (u "__ow_method", VStr (u "PUT")); (u "query", VStr (u "x")) ].

(** [{"__ow_method": "get", "query": "x"}] *)
Definition args_lowercase_get_query_text : dict :=
  [ (u "__ow_method", VStr (u "get")); (u "query", VStr (u "x")) ].

(** [{"__ow_method": "DELETE", "query": "x"}] *)
Definition args_delete_query_text : dict :=
  [ (u "__ow_method", VStr (u "DELETE")); (u "query", VStr (u "x")) ].

(** [{"__ow_path": "\ud800"}], a GET by default *)
Definition args_surrogate_path : dict :=
  [ (u "__ow_path", VStr lone_surrogate) ].

(** [{"__ow_method": "POST", "__ow_path": "\ud800"}] *)
Definition args_post_surrogate_path : dict :=
  [ (u "__ow_method", VStr (u "POST")); (u "__ow_path", VStr lone_surrogate) ].

(** [{"__ow_method": "DELETE", "__ow_path": "\ud800"}] *)
Definition args_delete_surrogate_path : dict :=
  [ (u "__ow_method", VStr (u "DELETE"));
    (u "__ow_path", VStr lone_surrogate) ].

(** [{"__ow_method": "\ud800"}] *)
Definition args_surrogate_method : dict :=
  [ (u "__ow_method", VStr lone_surrogate) ].

(** [{"body": [[...[null]...]]}], a GET by default *)
Definition args_deep_body : dict :=
  [ (u "body", deep_list) ].

(** [{"name": "Ada", "body": 7, "extra": [null]}], a GET by default *)
Definition args_ada_with_body : dict :=
  [ (u "name", VStr (u "Ada")); (u "body", VInt 7);
    (u "extra", VList [ VNone ]) ].

(** [{"name": "Zed", "__ow_path": "/p", "__ow_method": "POST",
      "body": {"x": 1}}] *)
Definition args_post_named : dict :=
  [ (u "name", VStr (u "Zed")); (u "__ow_path", VStr (u "/p"));
    (u "__ow_method", VStr (u "POST"));
    (u "body", VDict [ (u "x", VInt 1) ]) ].

(** [{"__ow_method": "POST", "body": [[...[null]...]]}] *)
Definition args_post_deep_body : dict :=
  [ (u "__ow_method", VStr (u "POST")); (u "body", deep_list) ].

(** [{"__ow_method": "DELETE", "body": [[...[null]...]]}] *)
Definition args_delete_deep_body : dict :=
  [ (u "__ow_method", VStr (u "DELETE")); (u "body", deep_list) ].

(** [{"__ow_method": "get", "body": [[...[null]...]]}] *)
Definition args_lowercase_get_deep_body : dict :=
  [ (u "__ow_method", VStr (u "get")); (u "body", deep_list) ].

(** The first log line of a GET, a POST, a DELETE and a [get] on [/]. *)
Definition received_get : text := u "Received GET request to /".
Definition received_post : text := u "Received POST request to /".
Definition received_delete : text := u "Received DELETE request to /".
Definition received_lowercase_get : text := u "Received get request to /".

Definition str_has_no_get : exn :=
  AttributeError "'str' object has no attribute 'get'".


(** ** Basic facts *)

Lemma text_eqb_eq (a b : text) : text_eqb a b = true <-> a = b.
Proof.
  revert b. induction a as [ | x a IH]; intros [ | y b]; simpl;
    try (split; [discriminate | intros H; discriminate H]).
  - split; reflexivity.
  - rewrite andb_true_iff, N.eqb_eq, IH. split.
    + intros [-> ->]. reflexivity.
    + intros H. injection H as -> ->. split; reflexivity.
Qed.

Lemma eq_str_true (v : value) (s : text) :
  eq_str v s = true <-> v = VStr s.
Proof.
  destruct v; simpl; try (split; [discriminate | intros H; discriminate H]).
  rewrite text_eqb_eq. split.
  - intros ->. reflexivity.
  - intros H. injection H as ->. reflexivity.
Qed.

Lemma eq_str_false (v : value) (s : text) :
  v <> VStr s -> eq_str v s = false.
Proof.
  intros H. destruct (eq_str v s) eqn:E; [ | reflexivity].
  apply eq_str_true in E. contradiction.
Qed.

Lemma dict_get_present (d : dict) (k : text) (v default : value) :
  lookup k d = Some v -> dict_get d k default = v.
Proof. unfold dict_get. intros ->. reflexivity. Qed.

Lemma dict_get_absent (d : dict) (k : text) (default : value) :
  lookup k d = None -> dict_get d k default = default.
Proof. unfold dict_get. intros ->. reflexivity. Qed.

Lemma str_ok_text (e : env) (s : text) : str_ok e (VStr s) = true.
Proof. reflexivity. Qed.

(** What lines 10-12 do on every input: the fallback is looked up in
    the value of ['query'] first, and that raises unless the value is a
    dictionary.  Nothing is printed. *)
Lemma get_parameters_eq (args : dict) (out : list text) :
  get_parameters args out =
  match dict_get args (u "query") (VDict []) with
  | VDict q =>
      (Returns (dict_get args (u "name")
                         (dict_get q (u "name") (VStr (u "World"))),
                dict_get args (u "__ow_method") (VStr (u "GET")),
                dict_get args (u "__ow_path") (VStr (u "/"))), out)
  | o =>
      (Raises (AttributeError
                 ("'" ++ type_name o ++ "' object has no attribute 'get'")
                 %string),
       out)
  end.
Proof.
  unfold get_parameters, bind, call_get.
  destruct (dict_get args (u "query") (VDict [])); reflexivity.
Qed.

Lemma query_ok_dict (args : dict) :
  query_ok args = true ->
  exists q, dict_get args (u "query") (VDict []) = VDict q.
Proof.
  unfold query_ok, dict_get.
  destruct (lookup (u "query") args) as [q | ].
  - destruct q; simpl; try discriminate. intros _. eexists. reflexivity.
  - intros _. eexists. reflexivity.
Qed.

Lemma get_parameters_returns (args : dict) :
  query_ok args = true ->
  exists name,
    run (get_parameters args) =
    (Returns (name, dict_get args (u "__ow_method") (VStr (u "GET")),
              dict_get args (u "__ow_path") (VStr (u "/"))), []).
Proof.
  intros H. destruct (query_ok_dict args H) as [q Hq].
  unfold run. rewrite get_parameters_eq, Hq. eexists. reflexivity.
Qed.

Lemma get_parameters_raises (args : dict) (q : value) :
  lookup (u "query") args = Some q ->
  is_dict q = false ->
  run (get_parameters args) =
  (Raises (AttributeError
             ("'" ++ type_name q ++ "' object has no attribute 'get'")
             %string), []).
Proof.
  intros Hq Hd. unfold run. rewrite get_parameters_eq.
  rewrite (dict_get_present _ _ _ _ Hq).
  destruct q; try reflexivity. discriminate Hd.
Qed.

(** Lines 10-12 print nothing and bind the method and path by their
    defaults; they complete exactly when ['query'] is absent or a
    mapping. *)
Lemma get_parameters_inv (args : dict) (p : value * value * value)
    (out : list text) :
  run (get_parameters args) = (Returns p, out) ->
  out = [] /\ query_ok args = true /\
  snd (fst p) = dict_get args (u "__ow_method") (VStr (u "GET")) /\
  snd p = dict_get args (u "__ow_path") (VStr (u "/")).
Proof.
  unfold run. rewrite get_parameters_eq. unfold query_ok, dict_get at 1.
  destruct (lookup (u "query") args) as [q | ].
  - destruct q; try discriminate.
    intros H. injection H as <- <-. repeat split.
  - intros H. injection H as <- <-. repeat split.
Qed.

Lemma resolved_some (args : dict) (p : value * value * value) :
  resolved args = Some p <-> run (get_parameters args) = (Returns p, []).
Proof.
  unfold resolved. split.
  - destruct (run (get_parameters args)) as [[q | x] out] eqn:E;
      [ | discriminate].
    intros H. injection H as ->.
    destruct (get_parameters_inv _ _ _ E) as [-> _]. reflexivity.
  - intros ->. reflexivity.
Qed.

(** When the parameters cannot be resolved, [main] raises the same
    exception and prints nothing. *)
Lemma main_raises (e : env) (args : dict) (x : exn) :
  run (get_parameters args) = (Raises x, []) ->
  run (main e args) = (Raises x, []).
Proof.
  unfold run, main, bind. intros ->. reflexivity.
Qed.

(** Once the parameters are resolved the two lines are printed, then the
    dispatch runs. *)
Lemma main_after_parameters (e : env) (args : dict)
    (name method path : value) :
  run (get_parameters args) = (Returns (name, method, path), []) ->
  run (main e args) =
  match log_request e args method path [] with
  | (Returns _, out) => handle_method e args name method path out
  | (Raises x, out) => (Raises x, out)
  end.
Proof.
  unfold run, main. unfold bind at 1. intros ->. reflexivity.
Qed.

(** The two lines are printed exactly when they can be. *)
Lemma log_request_returns (e : env) (args : dict) (method path : value) :
  can_log e args method path = true ->
  log_request e args method path [] =
  (Returns tt, [received_line e method path; args_line args]).
Proof.
  unfold can_log. rewrite !andb_true_iff.
  intros [[[[Hm Hp] H1] Hj] H2].
  unfold log_request, bind, format, json_dumps_indent2, print, ret.
  rewrite Hm, Hp. fold (received_line e method path). rewrite H1, Hj.
  fold (args_line args). rewrite H2. reflexivity.
Qed.

Lemma log_request_inv (e : env) (args : dict) (method path : value)
    (t : unit) (out : list text) :
  log_request e args method path [] = (Returns t, out) ->
  can_log e args method path = true /\
  out = [received_line e method path; args_line args].
Proof.
  unfold can_log, log_request, bind, format, json_dumps_indent2, print,
    ret, raise.
  destruct (str_ok e method); [ | discriminate].
  destruct (str_ok e path); [ | discriminate].
  fold (received_line e method path).
  destruct (encodable e (received_line e method path)); [ | discriminate].
  destruct (json_ok e (VDict args)); [ | discriminate].
  fold (args_line args).
  destruct (encodable e (args_line args)); [ | discriminate].
  intros H. inversion H. split; reflexivity.
Qed.

(** On a GET the dispatch formats the name and then returns. *)
Lemma handle_get (e : env) (args : dict) (name path : value)
    (out : list text) :
  handle_method e args name (VStr (u "GET")) path out =
  if str_ok e name then
    (Returns
       (VDict
          [ (u "statusCode", VInt 200);
            (u "headers", json_cors_headers);
            (u "body",
             VDict [ (u "message",
                      VStr (u "Hello, " ++ py_str e name ++ u "!"));
                     (u "timestamp", VStr (now e));
                     (u "method", VStr (u "GET"));
                     (u "path", path);
                     (u "language", VStr (u "Python")) ]) ]), out)
  else (Raises RecursionError, out).
Proof.
  unfold handle_method, bind, format, ret, raise. simpl eq_str. cbv iota.
  destruct (str_ok e name); reflexivity.
Qed.

(** On a POST the dispatch returns. *)
Lemma handle_post (e : env) (args : dict) (name path : value)
    (out : list text) :
  handle_method e args name (VStr (u "POST")) path out =
  (Returns
     (VDict
        [ (u "statusCode", VInt 200);
          (u "headers", json_cors_headers);
          (u "body",
           VDict [ (u "message", VStr (u "Data received successfully"));
                   (u "receivedData",
                    dict_get args (u "body") (VDict args));
                   (u "timestamp", VStr (now e)) ]) ]), out).
Proof. reflexivity. Qed.

(** On any other method the dispatch formats the method, which the
    first log line did before, and then returns. *)
Lemma handle_other (e : env) (args : dict) (name method path : value)
    (out : list text) :
  method <> VStr (u "GET") ->
  method <> VStr (u "POST") ->
  str_ok e method = true ->
  handle_method e args name method path out =
  (Returns (response_405 (py_str e method)), out).
Proof.
  intros Hg Hp Hm. unfold handle_method, bind, format, ret.
  rewrite (eq_str_false _ _ Hg), (eq_str_false _ _ Hp), Hm. reflexivity.
Qed.

(** A run that returns has resolved its parameters and printed its two
    lines, and returns what the dispatch returns after them. *)
Lemma main_returns_inv (e : env) (args : dict) (v : value)
    (out : list text) :
  run (main e args) = (Returns v, out) ->
  exists name method path,
    run (get_parameters args) = (Returns (name, method, path), []) /\
    can_log e args method path = true /\
    out = [received_line e method path; args_line args] /\
    handle_method e args name method path out = (Returns v, out).
Proof.
  intros H.
  destruct (run (get_parameters args)) as [[[[name method] path] | x] o] eqn:E.
  - destruct (get_parameters_inv _ _ _ E) as [-> _].
    rewrite (main_after_parameters _ _ _ _ _ E) in H.
    destruct (log_request e args method path []) as [[t | x] o] eqn:L.
    + destruct (log_request_inv _ _ _ _ _ _ L) as [Hc ->].
      exists name, method, path. repeat split; try assumption.
      * revert H. unfold handle_method, bind, format, ret, raise.
        destruct (eq_str method (u "GET")).
        { destruct (str_ok e name); [ | discriminate].
          intros H. inversion H. reflexivity. }
        destruct (eq_str method (u "POST")).
        { intros H. inversion H. reflexivity. }
        destruct (str_ok e method); [ | discriminate].
        intros H. inversion H. reflexivity.
      * revert H. unfold handle_method, bind, format, ret, raise.
        destruct (eq_str method (u "GET")).
        { destruct (str_ok e name); [ | discriminate].
          intros H. inversion H. reflexivity. }
        destruct (eq_str method (u "POST")).
        { intros H. inversion H. reflexivity. }
        destruct (str_ok e method); [ | discriminate].
        intros H. inversion H. reflexivity.
    + discriminate H.
  - revert H. unfold run, main. unfold bind at 1.
    unfold run in E. rewrite E. discriminate.
Qed.

(** Once the parameters are resolved and the two lines can be printed,
    the run ends as the dispatch does after them. *)
Lemma main_dispatch (e : env) (args : dict) (name method path : value) :
  run (get_parameters args) = (Returns (name, method, path), []) ->
  can_log e args method path = true ->
  run (main e args) =
  handle_method e args name method path
    [received_line e method path; args_line args].
Proof.
  intros H L. rewrite (main_after_parameters _ _ _ _ _ H).
  rewrite (log_request_returns _ _ _ _ L). reflexivity.
Qed.

Lemma can_log_str_method (e : env) (args : dict) (method path : value) :
  can_log e args method path = true -> str_ok e method = true.
Proof.
  unfold can_log. rewrite !andb_true_iff. intros [[[[H _] _] _] _]. exact H.
Qed.

Lemma can_return_resolved (e : env) (args : dict)
    (name method path : value) :
  can_return e args = true ->
  run (get_parameters args) = (Returns (name, method, path), []) ->
  can_log e args method path = true /\
  (method = VStr (u "GET") -> str_ok e name = true).
Proof.
  unfold can_return. intros H E. apply resolved_some in E. rewrite E in H.
  apply andb_true_iff in H. destruct H as [L G]. split; [exact L | ].
  intros ->. simpl in G. exact G.
Qed.

Lemma can_return_query (e : env) (args : dict) :
  can_return e args = true ->
  exists name method path,
    run (get_parameters args) = (Returns (name, method, path), []).
Proof.
  unfold can_return.
  destruct (resolved args) as [[[name method] path] | ] eqn:E;
    [ | discriminate].
  intros _. exists name, method, path. apply resolved_some. exact E.
Qed.

(** What a run returns on each of the three branches, when nothing
    stops it. *)
Lemma main_returns (e : env) (args : dict) (name method path : value) :
  can_return e args = true ->
  run (get_parameters args) = (Returns (name, method, path), []) ->
  exists v,
    run (main e args) =
    (Returns v, [received_line e method path; args_line args]) /\
    handle_method e args name method path [] = (Returns v, []).
Proof.
  intros C E. destruct (can_return_resolved _ _ _ _ _ C E) as [L G].
  rewrite (main_dispatch _ _ _ _ _ E L).
  pose proof (can_log_str_method _ _ _ _ L) as Hm.
  unfold handle_method, bind, format, ret.
  destruct (eq_str method (u "GET")) eqn:Eg.
  - apply eq_str_true in Eg. rewrite (G Eg). eexists. split; reflexivity.
  - destruct (eq_str method (u "POST")).
    + eexists. split; reflexivity.
    + rewrite Hm. eexists. split; reflexivity.
Qed.

(** ** The text functions on small values *)

Example py_str_list :
  py_str sample_env
    (VList [VStr (u "a"); VInt (-3); VNone; VBool true; VFloat "1.5"])
  = u "['a', -3, None, True, 1.5]".
Proof. reflexivity. Qed.

Example py_str_dict :
  py_str sample_env (VDict [(u "k", VStr (u "it's")); (u "n", VList [])])
  = u "{'k': " ++ [dquote] ++ u "it's" ++ [dquote] ++ u ", 'n': []}".
Proof. reflexivity. Qed.

(** [str] of a list with the string of code points 9, 127, 233 (a
    printable letter), 8232 (a line separator), 55296 (a surrogate) and
    917505 (a format character). *)
Example py_str_escapes :
  py_str sample_env (VList [VStr [9; 127; 233; 8232; 55296; 917505]%N])
  = u "['\t\x7f" ++ [233%N] ++ u "\u2028\ud800\U000e0001']".
Proof. reflexivity. Qed.

Example json_encode_nested :
  json_encode 0 (VList [VInt 1; VList [VNone; VFloat "inf"]; VDict []])
  = u "[" ++ [10%N] ++ u "  1," ++ [10%N] ++
    u "  [" ++ [10%N] ++ u "    null," ++ [10%N] ++ u "    Infinity" ++ [10%N]
    ++ u "  ]," ++ [10%N] ++ u "  {}" ++ [10%N] ++ u "]".
Proof. reflexivity. Qed.

(** [json.dumps] of the string of code points 10, 233, 256, 55296,
    128512, 97, 92 and 98: four hexadecimal digits for each escaped code
    point, a surrogate pair above U+FFFF. *)
Example json_string_escapes :
  json_string [10; 233; 256; 55296; 128512; 97; 92; 98]%N
  = [dquote] ++ u "\n\u00e9\u0100\ud800\ud83d\ude00a\\b" ++ [dquote].
Proof. reflexivity. Qed.

(** The empty invocation, in any environment: the two log lines and the
    GET response. *)
Example main_empty_input (e : env) :
  run (main e []) =
  (Returns
     (VDict [ (u "statusCode", VInt 200);
              (u "headers", json_cors_headers);
              (u "body",
               VDict [ (u "message", VStr (u "Hello, World!"));
                       (u "timestamp", VStr (now e));
                       (u "method", VStr (u "GET"));
                       (u "path", VStr (u "/"));
                       (u "language", VStr (u "Python")) ]) ]),
   [ u "Received GET request to /"; u "Args: {}" ]).
Proof. reflexivity. Qed.

(** ** Name resolution *)

(** C1, as the code has it: on every input whose ['query'] is absent or
    a mapping, the parameters are resolved, and the name is the value of
    ['name'] when that key is present, whatever ['query'] holds; else the
    value of ['name'] inside the ['query'] mapping when it is there; else
    the string ["World"]. *)
Theorem name_resolution_precedence (args : dict) :
  query_ok args = true ->
  exists name method path,
    run (get_parameters args) = (Returns (name, method, path), []) /\
    (forall v, lookup (u "name") args = Some v -> name = v) /\
    (forall q v,
        lookup (u "name") args = None ->
        lookup (u "query") args = Some (VDict q) ->
        lookup (u "name") q = Some v ->
        name = v) /\
    (lookup (u "name") args = None ->
     (lookup (u "query") args = None \/
      exists q, lookup (u "query") args = Some (VDict q) /\
                lookup (u "name") q = None) ->
     name = VStr (u "World")).
Proof.
  intros Hok. unfold run. rewrite get_parameters_eq.
  unfold query_ok in Hok. unfold dict_get.
  destruct (lookup (u "query") args) as [q | ] eqn:Hq.
  - destruct q; try discriminate Hok.
    do 3 eexists. split; [reflexivity | ]. repeat split.
    + intros v ->. reflexivity.
    + intros q v -> Hq' Hn. injection Hq' as <-. rewrite Hn. reflexivity.
    + intros -> [Habs | (q & Hq' & Hn)]; [discriminate Habs | ].
      injection Hq' as <-. rewrite Hn. reflexivity.
  - do 3 eexists. split; [reflexivity | ]. repeat split.
    + intros v ->. reflexivity.
    + intros q v _ Hq' _. discriminate Hq'.
    + intros -> _. reflexivity.
Qed.

Lemma name_resolution_precedence_witness :
  query_ok args_query_bob = true /\
  exists name method path,
    run (get_parameters args_query_bob) = (Returns (name, method, path), []) /\
    (forall v, lookup (u "name") args_query_bob = Some v -> name = v) /\
    (forall q v,
        lookup (u "name") args_query_bob = None ->
        lookup (u "query") args_query_bob = Some (VDict q) ->
        lookup (u "name") q = Some v ->
        name = v) /\
    (lookup (u "name") args_query_bob = None ->
     (lookup (u "query") args_query_bob = None \/
      exists q, lookup (u "query") args_query_bob = Some (VDict q) /\
                lookup (u "name") q = None) ->
     name = VStr (u "World")).
Proof.
  split; [reflexivity | ].
  apply (name_resolution_precedence args_query_bob). reflexivity.
Defined.

(** C1 as stated fails: with ['name'] present and a string under
    ['query'], no name is resolved; the handler raises. *)
Lemma name_present_query_text_raises :
  lookup (u "name") args_ada_query_text = Some (VStr (u "Ada")) /\
  run (get_parameters args_ada_query_text) = (Raises str_has_no_get, []) /\
  run (main sample_env args_ada_query_text) = (Raises str_has_no_get, []).
Proof. repeat split. Qed.

(** C8: the fallback for the name is evaluated eagerly.  On every input
    whose ['query'] is present and is not a mapping the handler raises
    [AttributeError] before it prints or returns anything, also when
    ['name'] is present. *)
Theorem query_not_mapping_raises (e : env) (args : dict) (q : value) :
  lookup (u "query") args = Some q ->
  is_dict q = false ->
  run (main e args) =
  (Raises (AttributeError
             ("'" ++ type_name q ++ "' object has no attribute 'get'")
             %string), []).
Proof.
  intros Hq Hd. apply main_raises. apply get_parameters_raises; assumption.
Qed.

Lemma query_not_mapping_raises_witness :
  lookup (u "name") args_ada_query_text = Some (VStr (u "Ada")) /\
  run (main sample_env args_ada_query_text) =
  (Raises (AttributeError
             ("'" ++ type_name (VStr (u "x"))
                  ++ "' object has no attribute 'get'")%string),
   []).
Proof.
  split; [reflexivity | ].
  apply (query_not_mapping_raises sample_env args_ada_query_text
           (VStr (u "x"))); reflexivity.
Defined.

(** ** The three responses *)

(** C3, as the code has it: on every input whose resolved method is
    ["GET"] and on which nothing stops the run (the two log lines can be
    produced and written, [str] of the name completes) the handler
    returns a result with status 200 whose body has the message
    ["Hello, <name>!"] for the resolved name, the language ["Python"],
    and the resolved method and path. *)
Theorem get_response (e : env) (args : dict) (name path : value) :
  can_return e args = true ->
  run (get_parameters args) = (Returns (name, VStr (u "GET"), path), []) ->
  exists v out,
    run (main e args) = (Returns v, out) /\
    field "statusCode" v = Some (VInt 200) /\
    body_field "message" v =
    Some (VStr (u "Hello, " ++ py_str e name ++ u "!")) /\
    body_field "language" v = Some (VStr (u "Python")) /\
    body_field "method" v = Some (VStr (u "GET")) /\
    body_field "path" v = Some path.
Proof.
  intros C E. destruct (can_return_resolved _ _ _ _ _ C E) as [L G].
  rewrite (main_dispatch _ _ _ _ _ E L), handle_get, (G eq_refl).
  do 2 eexists. repeat split.
Qed.

Lemma get_response_witness :
  can_return sample_env args_ada = true /\
  run (get_parameters args_ada) =
  (Returns (VStr (u "Ada"), VStr (u "GET"), VStr (u "/")), []) /\
  exists v out,
    run (main sample_env args_ada) = (Returns v, out) /\
    field "statusCode" v = Some (VInt 200) /\
    body_field "message" v =
    Some (VStr (u "Hello, " ++ py_str sample_env (VStr (u "Ada")) ++ u "!")) /\
    body_field "language" v = Some (VStr (u "Python")) /\
    body_field "method" v = Some (VStr (u "GET")) /\
    body_field "path" v = Some (VStr (u "/")).
Proof.
  split; [reflexivity | ]. split; [reflexivity | ].
  apply (get_response sample_env args_ada (VStr (u "Ada")) (VStr (u "/")));
    reflexivity.
Defined.

(** C3 as stated fails: three inputs whose method is ["GET"], by the
    key or by default, on which the handler returns no result.  A string
    under ['query'] raises at line 10; a path that [stdout] cannot
    encode raises at the first [print]; a ['body'] nested too deep
    raises in [json.dumps], after the first line. *)
Lemma get_request_not_answered :
  lookup (u "__ow_method") args_get_query_text = Some (VStr (u "GET")) /\
  run (main sample_env args_get_query_text) = (Raises str_has_no_get, []) /\
  run (get_parameters args_surrogate_path) =
  (Returns (VStr (u "World"), VStr (u "GET"), VStr lone_surrogate), []) /\
  run (main sample_env args_surrogate_path) = (Raises UnicodeEncodeError, []) /\
  run (get_parameters args_deep_body) =
  (Returns (VStr (u "World"), VStr (u "GET"), VStr (u "/")), []) /\
  run (main sample_env args_deep_body) = (Raises RecursionError, [received_get]).
Proof. repeat split; vm_compute; reflexivity. Qed.

(** C4, as the code has it: on every input whose resolved method is
    ["POST"] and on which nothing stops the run (the two log lines can
    be produced and written) the handler returns a result with status
    200 whose [receivedData] is the value of the input's ['body'] key
    when the key is present, and the whole input mapping otherwise. *)
Theorem post_response (e : env) (args : dict) (name path : value) :
  can_return e args = true ->
  run (get_parameters args) = (Returns (name, VStr (u "POST"), path), []) ->
  exists v out,
    run (main e args) = (Returns v, out) /\
    field "statusCode" v = Some (VInt 200) /\
    body_field "receivedData" v =
    Some (match lookup (u "body") args with
          | Some b => b
          | None => VDict args
          end).
Proof.
  intros C E. destruct (can_return_resolved _ _ _ _ _ C E) as [L _].
  rewrite (main_dispatch _ _ _ _ _ E L), handle_post.
  do 2 eexists. repeat split.
Qed.

Lemma post_response_witness :
  can_return sample_env args_post = true /\
  run (get_parameters args_post) =
  (Returns (VStr (u "World"), VStr (u "POST"), VStr (u "/")), []) /\
  exists v out,
    run (main sample_env args_post) = (Returns v, out) /\
    field "statusCode" v = Some (VInt 200) /\
    body_field "receivedData" v =
    Some (match lookup (u "body") args_post with
          | Some b => b
          | None => VDict args_post
          end).
Proof.
  split; [reflexivity | ]. split; [reflexivity | ].
  apply (post_response sample_env args_post (VStr (u "World")) (VStr (u "/")));
    reflexivity.
Defined.

(** C4 as stated fails: three inputs whose method is ["POST"] on which
    the handler returns no result: a string under ['query'], a path that
    [stdout] cannot encode, a ['body'] nested too deep. *)
Lemma post_request_not_answered :
  lookup (u "__ow_method") args_post_query_text = Some (VStr (u "POST")) /\
  run (main sample_env args_post_query_text) = (Raises str_has_no_get, []) /\
  run (get_parameters args_post_surrogate_path) =
  (Returns (VStr (u "World"), VStr (u "POST"), VStr lone_surrogate), []) /\
  run (main sample_env args_post_surrogate_path) =
  (Raises UnicodeEncodeError, []) /\
  run (get_parameters args_post_deep_body) =
  (Returns (VStr (u "World"), VStr (u "POST"), VStr (u "/")), []) /\
  run (main sample_env args_post_deep_body) =
  (Raises RecursionError, [received_post]).
Proof. repeat split; vm_compute; reflexivity. Qed.

(** C5, as the code has it: on every input whose resolved method is
    neither ["GET"] nor ["POST"] and on which nothing stops the run (the
    two log lines can be produced and written) the handler returns a
    result with status 405, [allowedMethods] equal to [["GET", "POST"]]
    and [error] equal to ["Method <method> not allowed"] with the text
    of the method in it. *)
Theorem other_method_response (e : env) (args : dict)
    (name method path : value) :
  can_return e args = true ->
  run (get_parameters args) = (Returns (name, method, path), []) ->
  method <> VStr (u "GET") ->
  method <> VStr (u "POST") ->
  exists v out,
    run (main e args) = (Returns v, out) /\
    field "statusCode" v = Some (VInt 405) /\
    body_field "allowedMethods" v =
    Some (VList [VStr (u "GET"); VStr (u "POST")]) /\
    body_field "error" v =
    Some (VStr (u "Method " ++ py_str e method ++ u " not allowed")).
Proof.
  intros C E Hg Hp. destruct (can_return_resolved _ _ _ _ _ C E) as [L _].
  rewrite (main_dispatch _ _ _ _ _ E L).
  rewrite (handle_other _ _ _ _ _ _ Hg Hp (can_log_str_method _ _ _ _ L)).
  do 2 eexists. repeat split.
Qed.

Lemma other_method_response_witness :
  can_return sample_env args_delete = true /\
  run (get_parameters args_delete) =
  (Returns (VStr (u "World"), VStr (u "DELETE"), VStr (u "/")), []) /\
  exists v out,
    run (main sample_env args_delete) = (Returns v, out) /\
    field "statusCode" v = Some (VInt 405) /\
    body_field "allowedMethods" v =
    Some (VList [VStr (u "GET"); VStr (u "POST")]) /\
    body_field "error" v =
    Some (VStr (u "Method " ++ py_str sample_env (VStr (u "DELETE"))
                  ++ u " not allowed")).
Proof.
  split; [reflexivity | ]. split; [reflexivity | ].
  apply (other_method_response sample_env args_delete
           (VStr (u "World")) (VStr (u "DELETE")) (VStr (u "/")));
    [reflexivity | reflexivity | discriminate | discriminate].
Defined.

(** C5 as stated fails: three inputs whose method is neither ["GET"]
    nor ["POST"] on which the handler raises instead of returning the
    405 response: a string under ['query'], a method that [stdout]
    cannot encode, a ['body'] nested too deep. *)
Lemma other_request_not_answered :
  lookup (u "__ow_method") args_put_query_text = Some (VStr (u "PUT")) /\
  run (main sample_env args_put_query_text) = (Raises str_has_no_get, []) /\
  run (get_parameters args_surrogate_method) =
  (Returns (VStr (u "World"), VStr lone_surrogate, VStr (u "/")), []) /\
  run (main sample_env args_surrogate_method) =
  (Raises UnicodeEncodeError, []) /\
  run (get_parameters args_delete_deep_body) =
  (Returns (VStr (u "World"), VStr (u "DELETE"), VStr (u "/")), []) /\
  run (main sample_env args_delete_deep_body) =
  (Raises RecursionError, [received_delete]).
Proof. repeat split; vm_compute; reflexivity. Qed.

(** C6: whichever of the three branches the dispatch takes, the headers
    of the returned result are exactly [Content-Type: application/json]
    and [Access-Control-Allow-Origin: *]. *)
Theorem headers_on_every_response (e : env) (args : dict) (v : value)
    (out : list text) :
  run (main e args) = (Returns v, out) ->
  field "headers" v =
  Some (VDict [ (u "Content-Type", VStr (u "application/json"));
                (u "Access-Control-Allow-Origin", VStr (u "*")) ]).
Proof.
  intros H.
  destruct (main_returns_inv _ _ _ _ H)
    as (name & method & path & _ & _ & _ & D).
  revert D. unfold handle_method, bind, format, ret, raise.
  destruct (eq_str method (u "GET")).
  - destruct (str_ok e name); [ | discriminate].
    intros D. inversion D. reflexivity.
  - destruct (eq_str method (u "POST")).
    + intros D. inversion D. reflexivity.
    + destruct (str_ok e method); [ | discriminate].
      intros D. inversion D. reflexivity.
Qed.

Lemma headers_on_every_response_witness :
  (exists v out,
      run (main sample_env args_ada) = (Returns v, out) /\
      field "statusCode" v = Some (VInt 200) /\
      field "headers" v = Some json_cors_headers) /\
  (exists v out,
      run (main sample_env args_post) = (Returns v, out) /\
      field "statusCode" v = Some (VInt 200) /\
      field "headers" v = Some json_cors_headers) /\
  (exists v out,
      run (main sample_env args_delete_items) = (Returns v, out) /\
      field "statusCode" v = Some (VInt 405) /\
      field "headers" v = Some json_cors_headers).
Proof.
  repeat split.
  - do 2 eexists. split; [reflexivity | ]. split; [reflexivity | ].
    eapply (headers_on_every_response sample_env args_ada). reflexivity.
  - do 2 eexists. split; [reflexivity | ]. split; [reflexivity | ].
    eapply (headers_on_every_response sample_env args_post). reflexivity.
  - do 2 eexists. split; [reflexivity | ]. split; [reflexivity | ].
    eapply (headers_on_every_response sample_env args_delete_items).
    reflexivity.
Defined.

(** C7: the resolved method is the value of ['__ow_method'], or ["GET"]
    when the key is absent; the resolved path is the value of
    ['__ow_path'], or ["/"] when the key is absent; and the empty input
    takes the GET branch: status 200 and the message
    ["Hello, World!"]. *)
Theorem method_and_path_defaults (e : env) (args : dict)
    (name method path : value) :
  run (get_parameters args) = (Returns (name, method, path), []) ->
  method = match lookup (u "__ow_method") args with
           | Some m => m
           | None => VStr (u "GET")
           end /\
  path = match lookup (u "__ow_path") args with
         | Some p => p
         | None => VStr (u "/")
         end /\
  exists v out,
    run (main e []) = (Returns v, out) /\
    field "statusCode" v = Some (VInt 200) /\
    body_field "message" v = Some (VStr (u "Hello, World!")) /\
    body_field "method" v = Some (VStr (u "GET")) /\
    body_field "path" v = Some (VStr (u "/")).
Proof.
  unfold run. rewrite get_parameters_eq.
  destruct (dict_get args (u "query") (VDict [])); try discriminate.
  intros H. injection H as _ <- <-.
  repeat split. do 2 eexists. repeat split.
Qed.

Lemma method_and_path_defaults_witness :
  run (get_parameters args_lowercase_get) =
  (Returns (VStr (u "World"), VStr (u "get"), VStr (u "/lower")), []) /\
  VStr (u "get") = match lookup (u "__ow_method") args_lowercase_get with
                   | Some m => m
                   | None => VStr (u "GET")
                   end /\
  VStr (u "/lower") = match lookup (u "__ow_path") args_lowercase_get with
                      | Some p => p
                      | None => VStr (u "/")
                      end /\
  exists v out,
    run (main sample_env []) = (Returns v, out) /\
    field "statusCode" v = Some (VInt 200) /\
    body_field "message" v = Some (VStr (u "Hello, World!")) /\
    body_field "method" v = Some (VStr (u "GET")) /\
    body_field "path" v = Some (VStr (u "/")).
Proof.
  split; [reflexivity | ].
  apply (method_and_path_defaults sample_env args_lowercase_get
           (VStr (u "World")) (VStr (u "get")) (VStr (u "/lower"))).
  reflexivity.
Defined.

(** ** Returning and raising *)

(** C2, as the code has it: on every input on which nothing stops the
    run (['query'] is absent or a mapping; [str] of the method and path,
    and of the name on a GET, and [json.dumps] of the arguments complete;
    [stdout] can encode the two log lines), whatever the keys hold
    otherwise, the handler returns, and what it returns is a well-formed
    result with status 200 or 405. *)
Theorem main_returns_well_formed (e : env) (args : dict) :
  can_return e args = true ->
  exists v out r,
    run (main e args) = (Returns v, out) /\
    as_result v = Some r /\
    (statusCode r = 200 \/ statusCode r = 405)%Z.
Proof.
  intros C. destruct (can_return_query _ _ C) as (name & method & path & E).
  destruct (can_return_resolved _ _ _ _ _ C E) as [L G].
  rewrite (main_dispatch _ _ _ _ _ E L).
  pose proof (can_log_str_method _ _ _ _ L) as Hm.
  unfold handle_method, bind, format, ret.
  destruct (eq_str method (u "GET")) eqn:Eg.
  - apply eq_str_true in Eg. rewrite (G Eg).
    do 3 eexists. split; [reflexivity | ]. split; [reflexivity | ].
    left. reflexivity.
  - destruct (eq_str method (u "POST")).
    + do 3 eexists. split; [reflexivity | ]. split; [reflexivity | ].
      left. reflexivity.
    + rewrite Hm.
      do 3 eexists. split; [reflexivity | ]. split; [reflexivity | ].
      right. reflexivity.
Qed.

Lemma main_returns_well_formed_witness :
  can_return sample_env args_delete_items = true /\
  exists v out r,
    run (main sample_env args_delete_items) = (Returns v, out) /\
    as_result v = Some r /\
    (statusCode r = 200 \/ statusCode r = 405)%Z.
Proof.
  split; [reflexivity | ].
  apply (main_returns_well_formed sample_env args_delete_items).
  reflexivity.
Defined.

(** C2 as stated fails: on three inputs the handler raises instead of
    returning.  A string under ['query'] is an oddly-typed field, and
    line 10 raises on it; an oddly-valued ['__ow_path'], a lone
    surrogate, cannot be printed; a ['body'] nested a thousand deep
    cannot be dumped. *)
Lemma query_text_not_returned :
  run (main sample_env args_query_text) = (Raises str_has_no_get, []) /\
  ~ (exists v out, run (main sample_env args_query_text) = (Returns v, out)) /\
  run (main sample_env args_surrogate_path) = (Raises UnicodeEncodeError, []) /\
  run (main sample_env args_deep_body) = (Raises RecursionError, [received_get]).
Proof.
  split; [reflexivity | ]. split.
  - intros (v & out & H). discriminate H.
  - split; vm_compute; reflexivity.
Qed.

(** ** Dispatch on the method *)

(** C9, as the code has it: the method is compared with ["GET"] and
    ["POST"] character by character, case included.  On every input
    whose ['__ow_method'] is a string other than these two, and on which
    nothing stops the run (['query'] is absent or a mapping, the two log
    lines can be produced and written), the 405 branch is taken and not
    a success branch. *)
Theorem dispatch_is_case_sensitive (e : env) (args : dict) (m : text) :
  lookup (u "__ow_method") args = Some (VStr m) ->
  m <> u "GET" ->
  m <> u "POST" ->
  can_return e args = true ->
  exists out,
    run (main e args) = (Returns (response_405 m), out) /\
    field "statusCode" (response_405 m) = Some (VInt 405).
Proof.
  intros Hm Hg Hp C.
  destruct (can_return_query _ _ C) as (name & method & path & E).
  destruct (get_parameters_inv _ _ _ E) as (_ & _ & Em & _). simpl in Em.
  rewrite (dict_get_present _ _ _ _ Hm) in Em. subst method.
  destruct (can_return_resolved _ _ _ _ _ C E) as [L _].
  rewrite (main_dispatch _ _ _ _ _ E L).
  rewrite handle_other; [ | congruence | congruence | reflexivity].
  eexists. split; reflexivity.
Qed.

Lemma dispatch_is_case_sensitive_witness :
  lookup (u "__ow_method") args_lowercase_get = Some (VStr (u "get")) /\
  can_return sample_env args_lowercase_get = true /\
  exists out,
    run (main sample_env args_lowercase_get) =
    (Returns (response_405 (u "get")), out) /\
    field "statusCode" (response_405 (u "get")) = Some (VInt 405).
Proof.
  split; [reflexivity | ]. split; [reflexivity | ].
  apply (dispatch_is_case_sensitive sample_env args_lowercase_get (u "get"));
    [reflexivity | discriminate | discriminate | reflexivity].
Defined.

(** C9 as stated fails: with a method other than ["GET"] and ["POST"],
    no branch of the dispatch is taken when a string is under ['query'],
    when the method is a string that [stdout] cannot encode, or when a
    ['body'] nests too deep; the handler raises before the dispatch. *)
Lemma lowercase_get_query_text_raises :
  lookup (u "__ow_method") args_lowercase_get_query_text =
  Some (VStr (u "get")) /\
  run (main sample_env args_lowercase_get_query_text) =
  (Raises str_has_no_get, []) /\
  lookup (u "__ow_method") args_surrogate_method = Some (VStr lone_surrogate) /\
  run (main sample_env args_surrogate_method) =
  (Raises UnicodeEncodeError, []) /\
  lookup (u "__ow_method") args_lowercase_get_deep_body =
  Some (VStr (u "get")) /\
  run (main sample_env args_lowercase_get_deep_body) =
  (Raises RecursionError, [received_lowercase_get]).
Proof. repeat split; vm_compute; reflexivity. Qed.

(** C10, as the code has it: for every two inputs that hold the same
    string under ['__ow_method'], neither ["GET"] nor ["POST"], and on
    which nothing stops the run, the handler returns the same result, at
    any two times and in any two environments: the 405 response is made
    of the method alone. *)
Theorem method_not_allowed_depends_on_method_only
    (e1 e2 : env) (args1 args2 : dict) (m : text) :
  lookup (u "__ow_method") args1 = Some (VStr m) ->
  lookup (u "__ow_method") args2 = Some (VStr m) ->
  m <> u "GET" ->
  m <> u "POST" ->
  can_return e1 args1 = true ->
  can_return e2 args2 = true ->
  exists v out1 out2,
    run (main e1 args1) = (Returns v, out1) /\
    run (main e2 args2) = (Returns v, out2) /\
    v = response_405 m.
Proof.
  intros H1 H2 Hg Hp C1 C2.
  destruct (can_return_query _ _ C1) as (n1 & m1 & p1 & E1).
  destruct (can_return_query _ _ C2) as (n2 & m2 & p2 & E2).
  destruct (get_parameters_inv _ _ _ E1) as (_ & _ & Em1 & _).
  destruct (get_parameters_inv _ _ _ E2) as (_ & _ & Em2 & _).
  simpl in Em1, Em2.
  rewrite (dict_get_present _ _ _ _ H1) in Em1.
  rewrite (dict_get_present _ _ _ _ H2) in Em2. subst m1 m2.
  destruct (can_return_resolved _ _ _ _ _ C1 E1) as [L1 _].
  destruct (can_return_resolved _ _ _ _ _ C2 E2) as [L2 _].
  rewrite (main_dispatch _ _ _ _ _ E1 L1), (main_dispatch _ _ _ _ _ E2 L2).
  rewrite !handle_other by (congruence || reflexivity).
  do 3 eexists. repeat split.
Qed.

Lemma method_not_allowed_depends_on_method_only_witness :
  lookup (u "__ow_method") args_delete = Some (VStr (u "DELETE")) /\
  lookup (u "__ow_method") args_delete_items = Some (VStr (u "DELETE")) /\
  exists v out1 out2,
    run (main sample_env args_delete) = (Returns v, out1) /\
    run (main later_env args_delete_items) = (Returns v, out2) /\
    v = response_405 (u "DELETE").
Proof.
  split; [reflexivity | ]. split; [reflexivity | ].
  apply (method_not_allowed_depends_on_method_only
           sample_env later_env args_delete args_delete_items (u "DELETE"));
    [reflexivity | reflexivity | discriminate | discriminate
    | reflexivity | reflexivity].
Defined.

(** C10 as stated fails: four inputs with the same ['__ow_method'],
    ["DELETE"].  The first run returns the 405 response; the others
    raise, by a string under ['query'], by a path that [stdout] cannot
    encode, by a ['body'] nested too deep.  What the other keys hold
    decides whether a result is returned at all. *)
Lemma same_method_different_outcome :
  lookup (u "__ow_method") args_delete = Some (VStr (u "DELETE")) /\
  lookup (u "__ow_method") args_delete_query_text = Some (VStr (u "DELETE")) /\
  lookup (u "__ow_method") args_delete_surrogate_path =
  Some (VStr (u "DELETE")) /\
  lookup (u "__ow_method") args_delete_deep_body = Some (VStr (u "DELETE")) /\
  fst (run (main sample_env args_delete)) =
  Returns (response_405 (u "DELETE")) /\
  fst (run (main sample_env args_delete_query_text)) = Raises str_has_no_get /\
  fst (run (main sample_env args_delete_surrogate_path)) =
  Raises UnicodeEncodeError /\
  fst (run (main sample_env args_delete_deep_body)) = Raises RecursionError /\
  fst (run (main sample_env args_delete)) <>
  fst (run (main sample_env args_delete_query_text)).
Proof.
  repeat split; try (vm_compute; reflexivity). discriminate.
Qed.

(** ** The run as a whole *)

(** X1: when the handler returns.  A run returns a result exactly when
    nothing stops it: ['query'] is absent or a mapping, [str] of the
    method and path (and of the name, on a GET) and [json.dumps] of the
    arguments complete, and [stdout] can encode the two log lines.  In
    every other case it raises. *)
Theorem returns_exactly_when_nothing_stops (e : env) (args : dict) :
  (exists v out, run (main e args) = (Returns v, out)) <->
  can_return e args = true.
Proof.
  split.
  - intros (v & out & H).
    destruct (main_returns_inv _ _ _ _ H)
      as (name & method & path & E & L & _ & D).
    unfold can_return. apply resolved_some in E. rewrite E, L. simpl.
    revert D. unfold handle_method, bind, format, ret, raise.
    destruct (eq_str method (u "GET")); [ | reflexivity].
    destruct (str_ok e name); [reflexivity | discriminate].
  - intros C. destruct (can_return_query _ _ C) as (name & method & path & E).
    destruct (main_returns _ _ _ _ _ C E) as (v & H & _).
    exists v. eexists. exact H.
Qed.

(** X2: the status and the timestamp go together.  Every result the
    handler returns has either status 200 with the clock's text under
    [timestamp], and then the method was ["GET"] or ["POST"], or status
    405 with no [timestamp] at all, and then it was neither. *)
Theorem timestamp_with_success (e : env) (args : dict)
    (name method path v : value) (out : list text) :
  run (get_parameters args) = (Returns (name, method, path), []) ->
  run (main e args) = (Returns v, out) ->
  (method = VStr (u "GET") \/ method = VStr (u "POST")) /\
  field "statusCode" v = Some (VInt 200) /\
  body_field "timestamp" v = Some (VStr (now e))
  \/
  method <> VStr (u "GET") /\ method <> VStr (u "POST") /\
  field "statusCode" v = Some (VInt 405) /\
  body_field "timestamp" v = None.
Proof.
  intros E H.
  destruct (main_returns_inv _ _ _ _ H)
    as (name' & method' & path' & E' & _ & _ & D).
  rewrite E in E'. injection E' as <- <- <-.
  revert D. unfold handle_method, bind, format, ret, raise.
  destruct (eq_str method (u "GET")) eqn:Eg.
  - apply eq_str_true in Eg.
    destruct (str_ok e name); [ | discriminate].
    intros D. inversion D. left. repeat split. left. exact Eg.
  - destruct (eq_str method (u "POST")) eqn:Ep.
    + apply eq_str_true in Ep.
      intros D. inversion D. left. repeat split. right. exact Ep.
    + destruct (str_ok e method); [ | discriminate].
      intros D. inversion D. right. repeat split.
      * intros X. apply eq_str_true in X. congruence.
      * intros X. apply eq_str_true in X. congruence.
Qed.

Lemma timestamp_with_success_witness :
  exists v out,
    run (main sample_env args_post) = (Returns v, out) /\
    ((VStr (u "POST") = VStr (u "GET") \/ VStr (u "POST") = VStr (u "POST")) /\
     field "statusCode" v = Some (VInt 200) /\
     body_field "timestamp" v = Some (VStr (now sample_env))
     \/
     VStr (u "POST") <> VStr (u "GET") /\
     VStr (u "POST") <> VStr (u "POST") /\
     field "statusCode" v = Some (VInt 405) /\
     body_field "timestamp" v = None).
Proof.
  do 2 eexists. split; [reflexivity | ].
  eapply (timestamp_with_success sample_env args_post
            (VStr (u "World")) (VStr (u "POST")) (VStr (u "/")));
    reflexivity.
Defined.

(** ** What each response depends on *)

(** X3: the GET response is built from the clock, the resolved name and
    the resolved path only.  Two GET runs in the same environment that
    both return, on inputs that resolve to the same name and path,
    return the same result, whatever else the inputs hold. *)
Theorem get_response_ignores_the_rest (e : env) (args1 args2 : dict)
    (name path v1 v2 : value) (out1 out2 : list text) :
  run (get_parameters args1) = (Returns (name, VStr (u "GET"), path), []) ->
  run (get_parameters args2) = (Returns (name, VStr (u "GET"), path), []) ->
  run (main e args1) = (Returns v1, out1) ->
  run (main e args2) = (Returns v2, out2) ->
  v1 = v2.
Proof.
  intros E1 E2 H1 H2.
  destruct (main_returns_inv _ _ _ _ H1) as (n1 & m1 & p1 & E1' & _ & _ & D1).
  destruct (main_returns_inv _ _ _ _ H2) as (n2 & m2 & p2 & E2' & _ & _ & D2).
  rewrite E1 in E1'. injection E1' as <- <- <-.
  rewrite E2 in E2'. injection E2' as <- <- <-.
  rewrite handle_get in D1, D2.
  destruct (str_ok e name); [ | discriminate D1].
  inversion D1. inversion D2. reflexivity.
Qed.

Lemma get_response_ignores_the_rest_witness :
  exists v1 v2 out1 out2,
    run (main sample_env args_ada) = (Returns v1, out1) /\
    run (main sample_env args_ada_with_body) = (Returns v2, out2) /\
    v1 = v2.
Proof.
  do 4 eexists. split; [reflexivity | ]. split; [reflexivity | ].
  eapply (get_response_ignores_the_rest sample_env args_ada
            args_ada_with_body (VStr (u "Ada")) (VStr (u "/")));
    reflexivity.
Defined.

(** X4: the POST response is built from the clock and the ['body']
    only.  Two POST runs in the same environment that both return, on
    inputs that hold the same value under ['body'], return the same
    result, whatever their names, paths and other keys. *)
Theorem post_response_ignores_the_rest (e : env) (args1 args2 : dict)
    (b v1 v2 : value) (out1 out2 : list text) :
  lookup (u "__ow_method") args1 = Some (VStr (u "POST")) ->
  lookup (u "__ow_method") args2 = Some (VStr (u "POST")) ->
  lookup (u "body") args1 = Some b ->
  lookup (u "body") args2 = Some b ->
  run (main e args1) = (Returns v1, out1) ->
  run (main e args2) = (Returns v2, out2) ->
  v1 = v2 /\ body_field "receivedData" v1 = Some b.
Proof.
  intros M1 M2 B1 B2 H1 H2.
  destruct (main_returns_inv _ _ _ _ H1) as (n1 & m1 & p1 & E1 & _ & _ & D1).
  destruct (main_returns_inv _ _ _ _ H2) as (n2 & m2 & p2 & E2 & _ & _ & D2).
  destruct (get_parameters_inv _ _ _ E1) as (_ & _ & Em1 & _).
  destruct (get_parameters_inv _ _ _ E2) as (_ & _ & Em2 & _).
  simpl in Em1, Em2.
  rewrite (dict_get_present _ _ _ _ M1) in Em1.
  rewrite (dict_get_present _ _ _ _ M2) in Em2. subst m1 m2.
  rewrite handle_post in D1, D2.
  rewrite (dict_get_present _ _ _ _ B1) in D1.
  rewrite (dict_get_present _ _ _ _ B2) in D2.
  inversion D1. inversion D2. split; reflexivity.
Qed.

Lemma post_response_ignores_the_rest_witness :
  exists v1 v2 out1 out2,
    run (main sample_env args_post) = (Returns v1, out1) /\
    run (main sample_env args_post_named) = (Returns v2, out2) /\
    v1 = v2 /\
    body_field "receivedData" v1 = Some (VDict [ (u "x", VInt 1) ]).
Proof.
  do 4 eexists. split; [reflexivity | ]. split; [reflexivity | ].
  eapply (post_response_ignores_the_rest sample_env args_post
            args_post_named (VDict [ (u "x", VInt 1) ]));
    reflexivity.
Defined.

(** X5: a success response carries the time of the call.  On a GET or a
    POST, two runs on the same input that both return, at different
    clock texts, return different results. *)
Theorem success_response_depends_on_clock (e1 e2 : env) (args : dict)
    (name method path v1 v2 : value) (out1 out2 : list text) :
  run (get_parameters args) = (Returns (name, method, path), []) ->
  method = VStr (u "GET") \/ method = VStr (u "POST") ->
  now e1 <> now e2 ->
  run (main e1 args) = (Returns v1, out1) ->
  run (main e2 args) = (Returns v2, out2) ->
  v1 <> v2.
Proof.
  intros E Hm Hn H1 H2.
  destruct (main_returns_inv _ _ _ _ H1) as (n1 & m1 & p1 & E1 & _ & _ & D1).
  destruct (main_returns_inv _ _ _ _ H2) as (n2 & m2 & p2 & E2 & _ & _ & D2).
  rewrite E in E1. injection E1 as <- <- <-.
  rewrite E in E2. injection E2 as <- <- <-.
  intros X. apply Hn. subst v2.
  destruct Hm as [-> | ->].
  - rewrite handle_get in D1, D2.
    destruct (str_ok e1 name); [ | discriminate D1].
    destruct (str_ok e2 name); [ | discriminate D2].
    inversion D1 as [V1]. rewrite <- V1 in D2. inversion D2. reflexivity.
  - rewrite handle_post in D1, D2.
    inversion D1 as [V1]. rewrite <- V1 in D2. inversion D2. reflexivity.
Qed.

Lemma success_response_depends_on_clock_witness :
  exists v1 v2 out1 out2,
    run (main sample_env args_post) = (Returns v1, out1) /\
    run (main later_env args_post) = (Returns v2, out2) /\
    v1 <> v2.
Proof.
  do 4 eexists. split; [reflexivity | ]. split; [reflexivity | ].
  eapply (success_response_depends_on_clock sample_env later_env args_post
            (VStr (u "World")) (VStr (u "POST")) (VStr (u "/")));
    [reflexivity | right; reflexivity | discriminate
    | reflexivity | reflexivity].
Defined.

(** X7: from the input to the greeting.  On a GET (the method absent or
    ["GET"]), every result the handler returns has the message
    ["Hello, <n>!"] where [n] is the text of the value under ['name'],
    else of the value under ['name'] inside ['query'], else ["World"]. *)
Theorem greeting_of_input (e : env) (args : dict) (v : value)
    (out : list text) :
  run (main e args) = (Returns v, out) ->
  lookup (u "__ow_method") args = None \/
  lookup (u "__ow_method") args = Some (VStr (u "GET")) ->
  body_field "message" v =
  Some (VStr (u "Hello, "
                ++ py_str e
                     match lookup (u "name") args with
                     | Some n => n
                     | None =>
                         match lookup (u "query") args with
                         | Some (VDict q) =>
                             match lookup (u "name") q with
                             | Some n => n
                             | None => VStr (u "World")
                             end
                         | _ => VStr (u "World")
                         end
                     end
                ++ u "!")).
Proof.
  intros H Hm.
  destruct (main_returns_inv _ _ _ _ H)
    as (name & method & path & E & _ & _ & D).
  revert E. unfold run. rewrite get_parameters_eq. unfold dict_get.
  destruct (lookup (u "query") args) as [q | ].
  - destruct q; try discriminate.
    intros E. injection E as <- <- <-.
    destruct Hm as [Hm | Hm]; rewrite Hm in D; rewrite handle_get in D;
      match type of D with
      | (if ?c then _ else _) = _ => destruct c; [ | discriminate D]
      end; inversion D; reflexivity.
  - intros E. injection E as <- <- <-.
    destruct Hm as [Hm | Hm]; rewrite Hm in D; rewrite handle_get in D;
      match type of D with
      | (if ?c then _ else _) = _ => destruct c; [ | discriminate D]
      end; inversion D; reflexivity.
Qed.

Lemma greeting_of_input_witness :
  exists v out,
    run (main sample_env args_query_bob) = (Returns v, out) /\
    body_field "message" v = Some (VStr (u "Hello, Bob!")).
Proof.
  do 2 eexists. split; [reflexivity | ].
  eapply (greeting_of_input sample_env args_query_bob);
    [reflexivity | left; reflexivity].
Defined.

(** X8: the 405 response tells which method was refused.  Two inputs
    whose ['__ow_method'] are strings other than ["GET"] and ["POST"]
    return the same result only if the two methods are the same
    string. *)
Theorem method_not_allowed_identifies_method (e1 e2 : env)
    (args1 args2 : dict) (m1 m2 : text) (v : value) (out1 out2 : list text) :
  lookup (u "__ow_method") args1 = Some (VStr m1) ->
  lookup (u "__ow_method") args2 = Some (VStr m2) ->
  m1 <> u "GET" -> m1 <> u "POST" ->
  m2 <> u "GET" -> m2 <> u "POST" ->
  run (main e1 args1) = (Returns v, out1) ->
  run (main e2 args2) = (Returns v, out2) ->
  m1 = m2.
Proof.
  intros L1 L2 G1 P1 G2 P2 H1 H2.
  destruct (main_returns_inv _ _ _ _ H1) as (n1 & x1 & p1 & E1 & _ & _ & D1).
  destruct (main_returns_inv _ _ _ _ H2) as (n2 & x2 & p2 & E2 & _ & _ & D2).
  destruct (get_parameters_inv _ _ _ E1) as (_ & _ & Em1 & _).
  destruct (get_parameters_inv _ _ _ E2) as (_ & _ & Em2 & _).
  simpl in Em1, Em2.
  rewrite (dict_get_present _ _ _ _ L1) in Em1.
  rewrite (dict_get_present _ _ _ _ L2) in Em2. subst x1 x2.
  rewrite handle_other in D1 by (congruence || reflexivity).
  rewrite handle_other in D2 by (congruence || reflexivity).
  inversion D1 as [V1]. rewrite <- V1 in D2. inversion D2 as [X].
  apply app_inv_tail in X. symmetry. exact X.
Qed.

Lemma method_not_allowed_identifies_method_witness :
  exists v out1 out2,
    run (main sample_env args_delete) = (Returns v, out1) /\
    run (main later_env args_delete_items) = (Returns v, out2) /\
    u "DELETE" = u "DELETE".
Proof.
  do 3 eexists. split; [reflexivity | ]. split; [reflexivity | ].
  eapply (method_not_allowed_identifies_method sample_env later_env
            args_delete args_delete_items (u "DELETE") (u "DELETE"));
    try reflexivity; discriminate.
Defined.

(** ** Failing to log *)

(** X10: a method or path that cannot be printed.  When the parameters
    resolve and the text of the first log line holds a character that
    [stdout] cannot encode, the handler raises [UnicodeEncodeError] at
    line 15: nothing is printed and the dispatch is not reached,
    whatever the method. *)
Theorem unprintable_request_raises (e : env) (args : dict)
    (name method path : value) :
  run (get_parameters args) = (Returns (name, method, path), []) ->
  str_ok e method = true ->
  str_ok e path = true ->
  encodable e (received_line e method path) = false ->
  run (main e args) = (Raises UnicodeEncodeError, []).
Proof.
  intros E Hm Hp Hl. rewrite (main_after_parameters _ _ _ _ _ E).
  unfold log_request, bind, format, print, ret.
  rewrite Hm, Hp. fold (received_line e method path). rewrite Hl.
  reflexivity.
Qed.

Lemma unprintable_request_raises_witness :
  run (get_parameters args_post_surrogate_path) =
  (Returns (VStr (u "World"), VStr (u "POST"), VStr lone_surrogate), []) /\
  run (main sample_env args_post_surrogate_path) =
  (Raises UnicodeEncodeError, []).
Proof.
  split; [reflexivity | ].
  apply (unprintable_request_raises sample_env args_post_surrogate_path
           (VStr (u "World")) (VStr (u "POST")) (VStr lone_surrogate));
    reflexivity.
Defined.

(** X11: arguments nested too deep.  When the first log line is written
    and [json.dumps] cannot walk the arguments, the handler raises
    [RecursionError] at line 16: the first line is the only one printed
    and the dispatch is not reached. *)
Theorem deep_arguments_raise (e : env) (args : dict)
    (name method path : value) :
  run (get_parameters args) = (Returns (name, method, path), []) ->
  str_ok e method = true ->
  str_ok e path = true ->
  encodable e (received_line e method path) = true ->
  json_ok e (VDict args) = false ->
  run (main e args) = (Raises RecursionError, [received_line e method path]).
Proof.
  intros E Hm Hp Hl Hj. rewrite (main_after_parameters _ _ _ _ _ E).
  unfold log_request, bind, format, json_dumps_indent2, print, ret, raise.
  rewrite Hm, Hp. fold (received_line e method path). rewrite Hl, Hj.
  reflexivity.
Qed.

Lemma deep_arguments_raise_witness :
  run (get_parameters args_post_deep_body) =
  (Returns (VStr (u "World"), VStr (u "POST"), VStr (u "/")), []) /\
  run (main sample_env args_post_deep_body) =
  (Raises RecursionError,
   [received_line sample_env (VStr (u "POST")) (VStr (u "/"))]).
Proof.
  split; [reflexivity | ].
  apply (deep_arguments_raise sample_env args_post_deep_body
           (VStr (u "World")) (VStr (u "POST")) (VStr (u "/")));
    vm_compute; reflexivity.
Defined.
